(** * chaosk8s: the Kubernetes client factory and the discovery routine

    A shallow embedding of [chaosk8s/__init__.py]:
    - [has_local_config_file], [create_k8s_api_client] and its inner
      [lookup];
    - [discover], [load_exported_activities], [explore_kubernetes_system].

    The process environment, the file system, the kubernetes client
    package and chaoslib are collaborators of the module; they are
    gathered in the record [Host] and every statement quantifies over it. *)

From Stdlib Require Import ZArith Ascii String List.
From stdpp Require Import base option list strings gmap.

Local Open Scope string_scope.
Local Open Scope list_scope.
Set Warnings "-register-all".

(** ** Python values *)

(** The values that reach this module through [os.environ], the secrets
    dictionary and the defaults of [lookup]: [None], booleans, integers and
    strings. *)
Inductive pyval : Type :=
  | PyNone
  | PyBool (b : bool)
  | PyInt (z : Z)
  | PyStr (s : string).

#[global] Instance pyval_eq_dec : EqDecision pyval.
Proof. solve_decision. Defined.

(** [v is not False]: identity with the [False] singleton. *)
Definition is_not_False (v : pyval) : bool :=
  match v with
  | PyBool false => false
  | _ => true
  end.

(** [d.get(k, default)] on a dictionary with string keys. *)
Definition dict_get {V : Type} (d : gmap string V) (k : string) (dflt : V) : V :=
  match d !! k with
  | Some v => v
  | None => dflt
  end.

(** [k in d]. *)
Definition dict_has {V : Type} (d : gmap string V) (k : string) : bool :=
  bool_decide (is_Some (d !! k)).

(** [os.environ] maps names to strings; read as Python values. *)
Definition environ_get (env : gmap string string) (k : string) (dflt : pyval) : pyval :=
  match env !! k with
  | Some s => PyStr s
  | None => dflt
  end.

(** [secrets or {}]: [None] and the empty dictionary are both falsy. *)
Definition secrets_or_empty (secrets : option (gmap string pyval)) : gmap string pyval :=
  match secrets with
  | Some d => if decide (d = ∅) then ∅ else d
  | None => ∅
  end.

(** ** Outcomes of fallible calls *)

Inductive exn : Type :=
  | KeyError (k : string)
  | TypeError
  | ExternalError (msg : string).

Inductive res (A : Type) : Type :=
  | Ok (a : A)
  | Raise (e : exn).
Arguments Ok {A} a.
Arguments Raise {A} e.

#[global] Instance res_ret : MRet res := @Ok.
#[global] Instance res_bind : MBind res :=
  fun A B f r => match r with Ok a => f a | Raise e => Raise e end.

(** ** The kubernetes client package, as far as this module touches it *)

(** The attributes of [client.Configuration] that [create_k8s_api_client]
    assigns. [api_key] and [api_key_prefix] are dictionaries. *)
Record Configuration : Type := mkConfiguration {
  debug : bool;
  host : pyval;
  verify_ssl : bool;
  cert_file : pyval;
  key_file : pyval;
  api_key : gmap string pyval;
  api_key_prefix : gmap string pyval;
  username : pyval;
  password : pyval
}.

(** [client.ApiClient(configuration)]. *)
Record ApiClient : Type := mkApiClient { configuration : Configuration }.

(** Attribute assignments. *)
Definition set_debug (b : bool) (c : Configuration) : Configuration :=
  mkConfiguration b (host c) (verify_ssl c) (cert_file c) (key_file c)
    (api_key c) (api_key_prefix c) (username c) (password c).
Definition set_host (v : pyval) (c : Configuration) : Configuration :=
  mkConfiguration (debug c) v (verify_ssl c) (cert_file c) (key_file c)
    (api_key c) (api_key_prefix c) (username c) (password c).
Definition set_verify_ssl (b : bool) (c : Configuration) : Configuration :=
  mkConfiguration (debug c) (host c) b (cert_file c) (key_file c)
    (api_key c) (api_key_prefix c) (username c) (password c).
Definition set_cert_file (v : pyval) (c : Configuration) : Configuration :=
  mkConfiguration (debug c) (host c) (verify_ssl c) v (key_file c)
    (api_key c) (api_key_prefix c) (username c) (password c).
Definition set_key_file (v : pyval) (c : Configuration) : Configuration :=
  mkConfiguration (debug c) (host c) (verify_ssl c) (cert_file c) v
    (api_key c) (api_key_prefix c) (username c) (password c).
Definition set_api_key (k : string) (v : pyval) (c : Configuration) : Configuration :=
  mkConfiguration (debug c) (host c) (verify_ssl c) (cert_file c) (key_file c)
    (<[k:=v]> (api_key c)) (api_key_prefix c) (username c) (password c).
Definition set_api_key_prefix (k : string) (v : pyval) (c : Configuration) : Configuration :=
  mkConfiguration (debug c) (host c) (verify_ssl c) (cert_file c) (key_file c)
    (api_key c) (<[k:=v]> (api_key_prefix c)) (username c) (password c).
Definition set_username (v : pyval) (c : Configuration) : Configuration :=
  mkConfiguration (debug c) (host c) (verify_ssl c) (cert_file c) (key_file c)
    (api_key c) (api_key_prefix c) v (password c).
Definition set_password (v : pyval) (c : Configuration) : Configuration :=
  mkConfiguration (debug c) (host c) (verify_ssl c) (cert_file c) (key_file c)
    (api_key c) (api_key_prefix c) (username c) v.

(** ** JSON documents, as [json.loads] returns them *)

Inductive json : Type :=
  | JNull
  | JBool (b : bool)
  | JNum (z : Z)
  | JStr (s : string)
  | JArr (l : list json)
  | JObj (kvs : list (string * json)).

(** [d[k]] for a string [k]: a dictionary gives its entry or [KeyError];
    anything else does not take a string subscript. *)
Fixpoint assoc_find (k : string) (kvs : list (string * json)) : option json :=
  match kvs with
  | [] => None
  | (k', v) :: rest => if decide (k' = k) then Some v else assoc_find k rest
  end.

Definition subscript (j : json) (k : string) : res json :=
  match j with
  | JObj kvs =>
      match assoc_find k kvs with
      | Some v => Ok v
      | None => Raise (KeyError k)
      end
  | _ => Raise TypeError
  end.

(** The characters of a string, each as a one-character string. *)
Fixpoint chars (s : string) : list json :=
  match s with
  | EmptyString => []
  | String a rest => JStr (String a EmptyString) :: chars rest
  end.

(** What [for x in j] runs over: the elements of a list, the keys of a
    dictionary, the characters of a string; other values are not
    iterable. *)
Definition iterate (j : json) : res (list json) :=
  match j with
  | JArr l => Ok l
  | JObj kvs => Ok (map (fun kv => JStr (fst kv)) kvs)
  | JStr s => Ok (chars s)
  | _ => Raise TypeError
  end.

(** ** The collaborators *)

Definition DiscoveredActivities : Type := json.

Record Host : Type := mkHost {
  (** [os.path.expanduser] *)
  expanduser : string -> string;
  (** [os.path.exists] *)
  path_exists : string -> bool;
  (** [config.new_client_from_config()] *)
  new_client_from_config : res ApiClient;
  (** [client.Configuration()] *)
  new_configuration : Configuration;
  (** [discover_actions] and [discover_probes] of chaoslib *)
  discover_actions : string -> res (list DiscoveredActivities);
  discover_probes : string -> res (list DiscoveredActivities);
  (** [CoreV1Api(api).list_namespace(_preload_content=False).read()] *)
  list_namespace : ApiClient -> res string;
  (** [CoreV1Api(api).list_namespaced_pod(namespace=n, ...).read()] *)
  list_namespaced_pod : ApiClient -> json -> res string;
  (** [ExtensionsV1beta1Api(api).list_namespaced_deployment(namespace=n, ...).read()] *)
  list_namespaced_deployment : ApiClient -> json -> res string;
  (** [json.loads] *)
  json_loads : string -> res json
}.

(** ** Logging *)

Inductive level : Type := INFO | WARNING.

(** A computation that emits log records and then returns or raises. *)
Record logged (A : Type) : Type := Logged {
  records : list (level * string);
  outcome : res A
}.
Arguments Logged {A} records outcome.
Arguments records {A} _.
Arguments outcome {A} _.

#[global] Instance logged_ret : MRet logged := fun A a => Logged [] (Ok a).
#[global] Instance logged_bind : MBind logged :=
  fun A B f m =>
    match outcome m with
    | Ok a => Logged (records m ++ records (f a)) (outcome (f a))
    | Raise e => Logged (records m) (Raise e)
    end.

Definition logger_info (msg : string) : logged unit := Logged [(INFO, msg)] (Ok tt).
Definition logger_warn (msg : string) : logged unit := Logged [(WARNING, msg)] (Ok tt).

(** A call that logs nothing. *)
Definition call {A : Type} (r : res A) : logged A := Logged [] r.

(** ** The discovery record *)

(** Modelled from the spec: chaoslib's [Discovery] dictionary and
    [initialize_discovery_result], which are not part of this repository.
    The spec gives the record as
    [{name, version, type, activities: [...], system: <optional snapshot>}];
    a new record has no activities and no system information. *)
Record Discovery : Type := mkDiscovery {
  name : string;
  version : string;
  type : string;
  activities : list DiscoveredActivities;
  system : option (gmap string json)
}.

Definition initialize_discovery_result (extension_name extension_version discovery_type : string)
    : Discovery :=
  mkDiscovery extension_name extension_version discovery_type [] None.

(** [discovery["activities"].extend(l)] *)
Definition extend_activities (l : list DiscoveredActivities) (d : Discovery) : Discovery :=
  mkDiscovery (name d) (version d) (type d) (activities d ++ l) (system d).

(** [discovery["system"] = v] *)
Definition set_system (v : option (gmap string json)) (d : Discovery) : Discovery :=
  mkDiscovery (name d) (version d) (type d) (activities d) v.

(** ** chaosk8s *)

Definition __version__ : string := "0.11.0".

Section Chaosk8s.

Variable h : Host.
(** [os.environ] *)
Variable env : gmap string string.

Definition has_local_config_file : bool :=
  let config_path :=
    expanduser h
      (match env !! "KUBECONFIG" with
       | Some p => p
       | None => "~/.kube/config"
       end) in
  path_exists h config_path.

(** The inner function [lookup] of [create_k8s_api_client]; [secrets] is
    the dictionary after [secrets = secrets or {}]. *)
Definition lookup (secrets : gmap string pyval) (k : string) (d : pyval) : pyval :=
  dict_get secrets k (environ_get env k d).

Definition create_k8s_api_client (secrets0 : option (gmap string pyval)) : res ApiClient :=
  let secrets := secrets_or_empty secrets0 in
  let lookup := lookup secrets in
  if has_local_config_file then
    new_client_from_config h
  else
    let configuration := new_configuration h in
    let configuration := set_debug true configuration in
    let configuration :=
      set_host (lookup "KUBERNETES_HOST" (PyStr "http://localhost")) configuration in
    let configuration :=
      set_verify_ssl
        (is_not_False (lookup "KUBERNETES_VERIFY_SSL" (PyBool false)))
        configuration in
    let configuration :=
      set_cert_file (lookup "KUBERNETES_CA_CERT_FILE" PyNone) configuration in
    let configuration :=
      if dict_has env "KUBERNETES_API_KEY" || dict_has secrets "KUBERNETES_API_KEY" then
        let configuration :=
          set_api_key "authorization" (lookup "KUBERNETES_API_KEY" PyNone)
            configuration in
        set_api_key_prefix "authorization"
          (lookup "KUBERNETES_API_KEY_PREFIX" (PyStr "Bearer")) configuration
      else if dict_has env "KUBERNETES_CERT_FILE" || dict_has secrets "KUBERNETES_CERT_FILE" then
        let configuration :=
          set_cert_file (lookup "KUBERNETES_CERT_FILE" PyNone) configuration in
        set_key_file (lookup "KUBERNETES_KEY_FILE" PyNone) configuration
      else if dict_has env "KUBERNETES_USERNAME" || dict_has secrets "KUBERNETES_USERNAME" then
        let configuration :=
          set_username (lookup "KUBERNETES_USERNAME" PyNone) configuration in
        set_password (lookup "KUBERNETES_PASSWORD" (PyStr "")) configuration
      else configuration in
    Ok (mkApiClient configuration).

(** *** Discovery *)

(** [activities = []] followed by four [activities.extend(...)]. *)
Definition load_exported_activities : res (list DiscoveredActivities) :=
  let activities := [] in
  a ← discover_actions h "chaosk8s.actions";
  let activities := activities ++ a in
  a ← discover_probes h "chaosk8s.probes";
  let activities := activities ++ a in
  a ← discover_actions h "chaosk8s.pod.actions";
  let activities := activities ++ a in
  a ← discover_probes h "chaosk8s.pod.probes";
  let activities := activities ++ a in
  Ok activities.

(** [ns["metadata"]["name"]] *)
Definition namespace_name (ns : json) : res json :=
  metadata ← subscript ns "metadata";
  subscript metadata "name".

(** Lines 132 to 134, right of the assignment:
    [json.loads(v1core.list_namespaced_pod(namespace=ns["metadata"]["name"],
    _preload_content=False).read())]. *)
Definition pods_of (api : ApiClient) (ns : json) : res json :=
  n ← namespace_name ns;
  ret ← list_namespaced_pod h api n;
  json_loads h ret.

(** Lines 136 to 138, right of the assignment. *)
Definition deployments_of (api : ApiClient) (ns : json) : res json :=
  n ← namespace_name ns;
  ret ← list_namespaced_deployment h api n;
  json_loads h ret.

(** One iteration of the loop of [explore_kubernetes_system] on the
    dictionary [info]. *)
Definition explore_namespace (api : ApiClient) (info : gmap string json) (ns : json)
    : res (gmap string json) :=
  pods ← pods_of api ns;
  let info := <["pods" := pods]> info in
  deployments ← deployments_of api ns;
  let info := <["deployments" := deployments]> info in
  Ok info.

(** [for ns in items: ...] *)
Fixpoint for_namespaces (api : ApiClient) (items : list json) (info : gmap string json)
    : res (gmap string json) :=
  match items with
  | [] => Ok info
  | ns :: rest =>
      info ← explore_namespace api info ns;
      for_namespaces api rest info
  end.

(** The function returns [None] (a bare [return]) or the dictionary
    [info]. *)
Definition explore_kubernetes_system : logged (option (gmap string json)) :=
  _ ← logger_info "Discovering Kubernetes system";
  if negb has_local_config_file then
    _ ← logger_warn "Could not locate the default kubeconfig file";
    mret None
  else
    call (api ← new_client_from_config h;
          namespaces ← list_namespace h api;
          let info := ∅ in
          document ← json_loads h namespaces;
          items ← subscript document "items";
          items ← iterate items;
          info ← for_namespaces api items info;
          Ok (Some info)).

Definition discover (discover_system : bool) : logged Discovery :=
  _ ← logger_info "Discovering capabilities from chaostoolkit-kubernetes";
  let discovery :=
    initialize_discovery_result "chaostoolkit-kubernetes" __version__ "kubernetes" in
  exported ← call load_exported_activities;
  let discovery := extend_activities exported discovery in
  if discover_system then
    explored ← explore_kubernetes_system;
    mret (set_system explored discovery)
  else
    mret discovery.

End Chaosk8s.

(** ** Observations on the inputs and on a configuration *)


(** The caller's value for [k], if the caller passed a dictionary that has
    one. *)
Definition bundle_value (secrets0 : option (gmap string pyval)) (k : string) : option pyval :=
  match secrets0 with
  | Some d => d !! k
  | None => None
  end.

(** [k in env or k in secrets], the test of the three branches. *)
Definition key_present (env : gmap string string) (secrets : gmap string pyval) (k : string)
    : bool :=
  dict_has env k || dict_has secrets k.

(** Python truthiness of a value. *)
Definition truthy (v : pyval) : bool :=
  match v with
  | PyNone => false
  | PyBool b => b
  | PyInt z => negb (Z.eqb z 0)
  | PyStr s => negb (String.eqb s "")
  end.

(** The three groups of authentication attributes: a group is populated
    when one of its attributes holds something. *)
Definition api_key_populated (c : Configuration) : bool :=
  negb (bool_decide (api_key c = ∅)) || negb (bool_decide (api_key_prefix c = ∅)).
Definition client_certificate_populated (c : Configuration) : bool :=
  truthy (cert_file c) || truthy (key_file c).
Definition username_password_populated (c : Configuration) : bool :=
  truthy (username c) || truthy (password c).

Definition populated_modes (c : Configuration) : nat :=
  (if api_key_populated c then 1 else 0)
  + (if client_certificate_populated c then 1 else 0)
  + (if username_password_populated c then 1 else 0).

(** ** Sample hosts *)

Definition sample_configuration : Configuration :=
  mkConfiguration false (PyStr "https://localhost") true PyNone PyNone ∅ ∅
    (PyStr "") (PyStr "").

Definition sample_expanduser (p : string) : string :=
  match p with
  | String "~"%char rest => ("/home/dev" ++ rest)%string
  | _ => p
  end.

(** A machine without any kubeconfig file. *)
Definition bare_host : Host :=
  mkHost sample_expanduser (fun _ => false)
    (Raise (ExternalError "no kubeconfig")) sample_configuration
    (fun _ => Ok []) (fun _ => Ok [])
    (fun _ => Raise (ExternalError "unreachable"))
    (fun _ _ => Raise (ExternalError "unreachable"))
    (fun _ _ => Raise (ExternalError "unreachable"))
    (fun _ => Raise (ExternalError "not JSON")).

(** A machine with [/home/dev/.kube/config], whose cluster has the
    namespaces [default] and [kube-system]. *)
Definition sample_cluster_client : ApiClient :=
  mkApiClient
    (set_cert_file (PyStr "/home/dev/.minikube/client.crt")
       (set_host (PyStr "https://192.168.99.100:8443") sample_configuration)).

Definition sample_namespace (n : string) : json :=
  JObj [("metadata", JObj [("name", JStr n)])].

Definition sample_json_loads (body : string) : res json :=
  if decide (body = "namespaces") then
    Ok (JObj [("kind", JStr "NamespaceList");
              ("items", JArr [sample_namespace "default";
                              sample_namespace "kube-system"])])
  else Ok (JObj [("kind", JStr body)]).

Definition sample_list (prefix : string) (n : json) : res string :=
  match n with
  | JStr s => Ok (prefix ++ s)%string
  | _ => Raise (ExternalError "bad namespace")
  end.

Definition dev_host : Host :=
  mkHost sample_expanduser (fun p => bool_decide (p = "/home/dev/.kube/config"))
    (Ok sample_cluster_client) sample_configuration
    (fun m => Ok [JStr m]) (fun m => Ok [JStr m])
    (fun _ => Ok "namespaces")
    (fun _ => sample_list "pods of ")
    (fun _ => sample_list "deployments of ")
    sample_json_loads.

(** ** Environments of the scenarios *)

Definition scenario_env : gmap string string :=
  {[ "KUBERNETES_HOST" := "https://10.0.0.1:6443"; "KUBERNETES_API_KEY" := "abc" ]}.

Definition api_key_and_certificates_env : gmap string string :=
  {[ "KUBERNETES_API_KEY" := "abc";
     "KUBERNETES_CERT_FILE" := "/etc/k8s/client.crt";
     "KUBERNETES_CA_CERT_FILE" := "/etc/k8s/ca.crt" ]}.

Definition both_certificates_env : gmap string string :=
  {[ "KUBERNETES_CA_CERT_FILE" := "/etc/k8s/ca.crt";
     "KUBERNETES_CERT_FILE" := "/etc/k8s/client.crt" ]}.

Definition api_key_and_ca_env : gmap string string :=
  {[ "KUBERNETES_API_KEY" := "abc";
     "KUBERNETES_CA_CERT_FILE" := "/etc/k8s/ca.crt" ]}.

(** A call returned. *)
Definition is_Ok_res {A : Type} (r : res A) : Prop := ∃ a, r = Ok a.

(** A machine on which discovering the pod probes fails. *)
Definition no_pod_probes_host : Host :=
  mkHost sample_expanduser (fun _ => false)
    (Raise (ExternalError "no kubeconfig")) sample_configuration
    (fun m => Ok [JStr m])
    (fun m => if decide (m = "chaosk8s.pod.probes")
              then Raise (ExternalError "cannot import chaosk8s.pod.probes")
              else Ok [JStr m])
    (fun _ => Raise (ExternalError "unreachable"))
    (fun _ _ => Raise (ExternalError "unreachable"))
    (fun _ _ => Raise (ExternalError "unreachable"))
    (fun _ => Raise (ExternalError "not JSON")).

(** ** Inputs that agree on some names *)

(** Two calls see the same thing under each name of [keys]: the same
    environment entry and the same caller value. *)
Definition agree_on (keys : list string) (env env' : gmap string string)
    (secrets0 secrets0' : option (gmap string pyval)) : Prop :=
  Forall (fun k => env !! k = env' !! k
                   ∧ bundle_value secrets0 k = bundle_value secrets0' k) keys.

(** The names whose presence or value decide the configuration of one run
    of [create_k8s_api_client] past the local-config test: the host, the
    verification flag, the three tests of the [if]/[elif] chain up to the
    first that holds, and the lookups of the branch taken. The path written
    on line 67 counts unless line 74 replaces it. *)
Definition relevant_keys (env : gmap string string) (secrets : gmap string pyval)
    : list string :=
  [ "KUBERNETES_HOST"; "KUBERNETES_VERIFY_SSL"; "KUBERNETES_API_KEY" ]
  ++ (if key_present env secrets "KUBERNETES_API_KEY" then
        [ "KUBERNETES_CA_CERT_FILE"; "KUBERNETES_API_KEY_PREFIX" ]
      else if key_present env secrets "KUBERNETES_CERT_FILE" then
        [ "KUBERNETES_CERT_FILE"; "KUBERNETES_KEY_FILE" ]
      else if key_present env secrets "KUBERNETES_USERNAME" then
        [ "KUBERNETES_CA_CERT_FILE"; "KUBERNETES_CERT_FILE";
          "KUBERNETES_USERNAME"; "KUBERNETES_PASSWORD" ]
      else
        [ "KUBERNETES_CA_CERT_FILE"; "KUBERNETES_CERT_FILE";
          "KUBERNETES_USERNAME" ]).

(** ** More sample hosts *)

(** [/home/dev/.kube/config] exists but cannot be loaded. *)
Definition broken_host : Host :=
  mkHost sample_expanduser (fun p => bool_decide (p = "/home/dev/.kube/config"))
    (Raise (ExternalError "invalid kubeconfig")) sample_configuration
    (fun m => Ok [JStr m]) (fun m => Ok [JStr m])
    (fun _ => Ok "namespaces")
    (fun _ => sample_list "pods of ")
    (fun _ => sample_list "deployments of ")
    sample_json_loads.

(** As [dev_host], but listing the deployments of [kube-system] fails. *)
Definition flaky_list_deployments (n : json) : res string :=
  match n with
  | JStr s =>
      if decide (s = "kube-system") then Raise (ExternalError "forbidden")
      else sample_list "deployments of " n
  | _ => sample_list "deployments of " n
  end.

Definition flaky_host : Host :=
  mkHost sample_expanduser (fun p => bool_decide (p = "/home/dev/.kube/config"))
    (Ok sample_cluster_client) sample_configuration
    (fun m => Ok [JStr m]) (fun m => Ok [JStr m])
    (fun _ => Ok "namespaces")
    (fun _ => sample_list "pods of ")
    (fun _ => flaky_list_deployments)
    sample_json_loads.

(** As [dev_host], on a cluster that answers with an empty list of
    namespaces, or with a document that has no ["items"]. *)
Definition empty_cluster_host : Host :=
  mkHost sample_expanduser (fun p => bool_decide (p = "/home/dev/.kube/config"))
    (Ok sample_cluster_client) sample_configuration
    (fun m => Ok [JStr m]) (fun m => Ok [JStr m])
    (fun _ => Ok "no namespaces")
    (fun _ => sample_list "pods of ")
    (fun _ => sample_list "deployments of ")
    (fun _ => Ok (JObj [("kind", JStr "NamespaceList"); ("items", JArr [])])).

Definition status_document_host : Host :=
  mkHost sample_expanduser (fun p => bool_decide (p = "/home/dev/.kube/config"))
    (Ok sample_cluster_client) sample_configuration
    (fun m => Ok [JStr m]) (fun m => Ok [JStr m])
    (fun _ => Ok "status")
    (fun _ => sample_list "pods of ")
    (fun _ => sample_list "deployments of ")
    (fun _ => Ok (JObj [("kind", JStr "Status"); ("code", JNum 403)])).

(** * Properties *)

(** ** Dictionaries and [lookup] *)

Lemma secrets_or_empty_lookup (secrets0 : option (gmap string pyval)) (k : string) :
  secrets_or_empty secrets0 !! k = bundle_value secrets0 k.
Proof.
  destruct secrets0 as [d|]; simpl.
  - case_decide as Hd; [by rewrite Hd | done].
  - apply lookup_empty.
Qed.

Lemma dict_has_true {V : Type} (d : gmap string V) (k : string) :
  dict_has d k = true ↔ is_Some (d !! k).
Proof. unfold dict_has. by rewrite bool_decide_eq_true. Qed.

Lemma dict_has_false {V : Type} (d : gmap string V) (k : string) :
  dict_has d k = false ↔ d !! k = None.
Proof.
  unfold dict_has. rewrite bool_decide_eq_false.
  by rewrite eq_None_not_Some.
Qed.

Lemma key_present_false env secrets k :
  key_present env secrets k = false ↔ env !! k = None ∧ secrets !! k = None.
Proof.
  unfold key_present. rewrite orb_false_iff.
  by rewrite !dict_has_false.
Qed.

Lemma lookup_absent env secrets k d :
  env !! k = None → secrets !! k = None → lookup env secrets k d = d.
Proof. intros He Hs. unfold lookup, dict_get, environ_get. by rewrite Hs, He. Qed.

Lemma lookup_bundle env secrets0 k d v :
  bundle_value secrets0 k = Some v →
  lookup env (secrets_or_empty secrets0) k d = v.
Proof.
  intros Hb. unfold lookup, dict_get.
  by rewrite secrets_or_empty_lookup, Hb.
Qed.

Lemma lookup_environ env secrets0 k d s :
  bundle_value secrets0 k = None → env !! k = Some s →
  lookup env (secrets_or_empty secrets0) k d = PyStr s.
Proof.
  intros Hb He. unfold lookup, dict_get, environ_get.
  by rewrite secrets_or_empty_lookup, Hb, He.
Qed.

Lemma lookup_default env secrets0 k d :
  bundle_value secrets0 k = None → env !! k = None →
  lookup env (secrets_or_empty secrets0) k d = d.
Proof.
  intros Hb He. apply lookup_absent; [done |].
  by rewrite secrets_or_empty_lookup.
Qed.

(** C2. [lookup k d] is the caller's value for [k] when the secrets
    dictionary has one, whatever the environment holds for [k]; without
    one it is the environment's string; without either it is [d]. This
    holds for every key, so for each of [resolver_keys]. *)
Theorem lookup_precedence (env : gmap string string)
    (secrets0 : option (gmap string pyval)) (k : string) (d : pyval) :
  (∀ v, bundle_value secrets0 k = Some v →
        lookup env (secrets_or_empty secrets0) k d = v) ∧
  (∀ s, bundle_value secrets0 k = None → env !! k = Some s →
        lookup env (secrets_or_empty secrets0) k d = PyStr s) ∧
  (bundle_value secrets0 k = None → env !! k = None →
        lookup env (secrets_or_empty secrets0) k d = d).
Proof.
  split; [| split].
  - intros v. apply lookup_bundle.
  - intros s. apply lookup_environ.
  - apply lookup_default.
Qed.

Lemma lookup_precedence_witness :
  lookup {[ "KUBERNETES_HOST" := "https://from.environment" ]}
    (secrets_or_empty (Some {[ "KUBERNETES_HOST" := PyStr "https://from.secrets" ]}))
    "KUBERNETES_HOST" (PyStr "http://localhost")
  = PyStr "https://from.secrets"
  ∧ lookup {[ "KUBERNETES_HOST" := "https://from.environment" ]}
      (secrets_or_empty (Some {[ "KUBERNETES_USERNAME" := PyStr "u" ]}))
      "KUBERNETES_HOST" (PyStr "http://localhost")
    = PyStr "https://from.environment"
  ∧ lookup ∅ (secrets_or_empty None) "KUBERNETES_HOST" (PyStr "http://localhost")
    = PyStr "http://localhost".
Proof.
  split; [| split].
  - apply (proj1 (lookup_precedence
                    {[ "KUBERNETES_HOST" := "https://from.environment" ]}
                    (Some {[ "KUBERNETES_HOST" := PyStr "https://from.secrets" ]})
                    "KUBERNETES_HOST" (PyStr "http://localhost"))).
    reflexivity.
  - apply (proj1 (proj2 (lookup_precedence
                    {[ "KUBERNETES_HOST" := "https://from.environment" ]}
                    (Some {[ "KUBERNETES_USERNAME" := PyStr "u" ]})
                    "KUBERNETES_HOST" (PyStr "http://localhost")))); reflexivity.
  - apply (proj2 (proj2 (lookup_precedence ∅ None
                    "KUBERNETES_HOST" (PyStr "http://localhost")))); reflexivity.
Defined.

(** ** [has_local_config_file] *)

(** The test reads [KUBECONFIG] and nothing else of the environment. *)
Lemma has_local_config_file_KUBECONFIG h (env env' : gmap string string) :
  env' !! "KUBECONFIG" = env !! "KUBECONFIG" →
  has_local_config_file h env' = has_local_config_file h env.
Proof. intros E. unfold has_local_config_file. by rewrite E. Qed.

Lemma has_local_config_file_path h (env : gmap string string) :
  has_local_config_file h env
  = path_exists h (expanduser h (default "~/.kube/config" (env !! "KUBECONFIG"))).
Proof. unfold has_local_config_file. by destruct (env !! "KUBECONFIG"). Qed.

(** ** [create_k8s_api_client] with a local config file *)

(** C1. When a file exists at the expanded [KUBECONFIG] path
    ([~/.kube/config] when the variable is unset), the function returns
    what [config.new_client_from_config()] returns, and the same for any
    other secrets and any other environment with the same [KUBECONFIG]:
    neither the secrets nor the [KUBERNETES_*] variables reach the
    result. *)
Theorem local_config_file_wins h (env env' : gmap string string)
    (secrets0 secrets0' : option (gmap string pyval)) :
  path_exists h (expanduser h (default "~/.kube/config" (env !! "KUBECONFIG"))) = true →
  env' !! "KUBECONFIG" = env !! "KUBECONFIG" →
  create_k8s_api_client h env secrets0 = new_client_from_config h
  ∧ create_k8s_api_client h env' secrets0' = create_k8s_api_client h env secrets0.
Proof.
  intros Hfile Hsame.
  rewrite <- has_local_config_file_path in Hfile.
  assert (Hfile' : has_local_config_file h env' = true)
    by (by rewrite (has_local_config_file_KUBECONFIG h env env' Hsame)).
  unfold create_k8s_api_client. by rewrite Hfile, Hfile'.
Qed.

Lemma local_config_file_wins_witness :
  create_k8s_api_client dev_host
    {[ "KUBERNETES_HOST" := "https://10.0.0.1:6443"; "KUBERNETES_API_KEY" := "abc" ]}
    (Some {[ "KUBERNETES_USERNAME" := PyStr "u"; "KUBERNETES_PASSWORD" := PyStr "p" ]})
  = Ok sample_cluster_client
  ∧ create_k8s_api_client dev_host ∅ None
    = create_k8s_api_client dev_host
        {[ "KUBERNETES_HOST" := "https://10.0.0.1:6443"; "KUBERNETES_API_KEY" := "abc" ]}
        (Some {[ "KUBERNETES_USERNAME" := PyStr "u"; "KUBERNETES_PASSWORD" := PyStr "p" ]}).
Proof.
  apply (local_config_file_wins dev_host
           {[ "KUBERNETES_HOST" := "https://10.0.0.1:6443"; "KUBERNETES_API_KEY" := "abc" ]}
           ∅); reflexivity.
Defined.

(** ** [create_k8s_api_client] without a local config file *)

Section Factory.

Variable h : Host.
Variable env : gmap string string.
Variable secrets0 : option (gmap string pyval).
Hypothesis no_local_config : has_local_config_file h env = false.

Let secrets : gmap string pyval := secrets_or_empty secrets0.

(** The function returns a client made from a configuration. *)
Lemma create_returns :
  ∃ c, create_k8s_api_client h env secrets0 = Ok (mkApiClient c).
Proof. unfold create_k8s_api_client. rewrite no_local_config. eauto. Qed.

Ltac enter_create Hc :=
  unfold create_k8s_api_client in Hc; rewrite no_local_config in Hc;
  fold secrets in Hc;
  fold (key_present env secrets "KUBERNETES_API_KEY") in Hc;
  fold (key_present env secrets "KUBERNETES_CERT_FILE") in Hc;
  fold (key_present env secrets "KUBERNETES_USERNAME") in Hc.

(** Lines 63 to 66: the attributes that no branch touches. *)
Lemma common_attributes c :
  create_k8s_api_client h env secrets0 = Ok (mkApiClient c) →
  debug c = true
  ∧ host c = lookup env secrets "KUBERNETES_HOST" (PyStr "http://localhost")
  ∧ verify_ssl c = is_not_False (lookup env secrets "KUBERNETES_VERIFY_SSL" (PyBool false)).
Proof.
  intros Hc. enter_create Hc.
  destruct (key_present env secrets "KUBERNETES_API_KEY");
    [| destruct (key_present env secrets "KUBERNETES_CERT_FILE");
       [| destruct (key_present env secrets "KUBERNETES_USERNAME")]];
    injection Hc as <-; done.
Qed.

(** Lines 69 to 72. *)
Lemma api_key_branch c :
  create_k8s_api_client h env secrets0 = Ok (mkApiClient c) →
  key_present env secrets "KUBERNETES_API_KEY" = true →
  api_key c
    = <["authorization" := lookup env secrets "KUBERNETES_API_KEY" PyNone]>
        (api_key (new_configuration h))
  ∧ api_key_prefix c
    = <["authorization" := lookup env secrets "KUBERNETES_API_KEY_PREFIX" (PyStr "Bearer")]>
        (api_key_prefix (new_configuration h))
  ∧ cert_file c = lookup env secrets "KUBERNETES_CA_CERT_FILE" PyNone
  ∧ key_file c = key_file (new_configuration h)
  ∧ username c = username (new_configuration h)
  ∧ password c = password (new_configuration h).
Proof.
  intros Hc Hk. enter_create Hc. rewrite Hk in Hc.
  injection Hc as <-. done.
Qed.

(** Lines 73 to 75. *)
Lemma client_certificate_branch c :
  create_k8s_api_client h env secrets0 = Ok (mkApiClient c) →
  key_present env secrets "KUBERNETES_API_KEY" = false →
  key_present env secrets "KUBERNETES_CERT_FILE" = true →
  api_key c = api_key (new_configuration h)
  ∧ api_key_prefix c = api_key_prefix (new_configuration h)
  ∧ cert_file c = lookup env secrets "KUBERNETES_CERT_FILE" PyNone
  ∧ key_file c = lookup env secrets "KUBERNETES_KEY_FILE" PyNone
  ∧ username c = username (new_configuration h)
  ∧ password c = password (new_configuration h).
Proof.
  intros Hc Hk Hcert. enter_create Hc. rewrite Hk, Hcert in Hc.
  injection Hc as <-. done.
Qed.

(** Lines 76 to 78. *)
Lemma username_password_branch c :
  create_k8s_api_client h env secrets0 = Ok (mkApiClient c) →
  key_present env secrets "KUBERNETES_API_KEY" = false →
  key_present env secrets "KUBERNETES_CERT_FILE" = false →
  key_present env secrets "KUBERNETES_USERNAME" = true →
  api_key c = api_key (new_configuration h)
  ∧ api_key_prefix c = api_key_prefix (new_configuration h)
  ∧ cert_file c = lookup env secrets "KUBERNETES_CA_CERT_FILE" PyNone
  ∧ key_file c = key_file (new_configuration h)
  ∧ username c = lookup env secrets "KUBERNETES_USERNAME" PyNone
  ∧ password c = lookup env secrets "KUBERNETES_PASSWORD" (PyStr "").
Proof.
  intros Hc Hk Hcert Hu. enter_create Hc. rewrite Hk, Hcert, Hu in Hc.
  injection Hc as <-. done.
Qed.

(** No branch taken. *)
Lemma no_branch c :
  create_k8s_api_client h env secrets0 = Ok (mkApiClient c) →
  key_present env secrets "KUBERNETES_API_KEY" = false →
  key_present env secrets "KUBERNETES_CERT_FILE" = false →
  key_present env secrets "KUBERNETES_USERNAME" = false →
  api_key c = api_key (new_configuration h)
  ∧ api_key_prefix c = api_key_prefix (new_configuration h)
  ∧ cert_file c = lookup env secrets "KUBERNETES_CA_CERT_FILE" PyNone
  ∧ key_file c = key_file (new_configuration h)
  ∧ username c = username (new_configuration h)
  ∧ password c = password (new_configuration h).
Proof.
  intros Hc Hk Hcert Hu. enter_create Hc. rewrite Hk, Hcert, Hu in Hc.
  injection Hc as <-. done.
Qed.

End Factory.

(** C10. Without a local config file the configuration of the returned
    client has [debug] set to [True], whatever the secrets and the
    environment. *)
Theorem debug_always_on h (env : gmap string string)
    (secrets0 : option (gmap string pyval)) :
  has_local_config_file h env = false →
  ∃ c, create_k8s_api_client h env secrets0 = Ok (mkApiClient c) ∧ debug c = true.
Proof.
  intros Hno. destruct (create_returns h env secrets0 Hno) as [c Hc].
  exists c. split; [done |].
  by destruct (common_attributes h env secrets0 Hno c Hc) as (? & _).
Qed.

Lemma debug_always_on_witness :
  ∃ c, create_k8s_api_client bare_host scenario_env
         (Some {[ "KUBERNETES_USERNAME" := PyStr "u" ]}) = Ok (mkApiClient c)
       ∧ debug c = true.
Proof. apply (debug_always_on bare_host). reflexivity. Defined.

(** C4. Without a local config file, [verify_ssl] is [False] when
    [KUBERNETES_VERIFY_SSL] is in neither the secrets nor the environment,
    and [True] when [lookup] finds it with a value that is not the [False]
    object: any caller value other than [False], or any string of the
    environment. *)
Theorem verify_ssl_unset_means_no h (env : gmap string string)
    (secrets0 : option (gmap string pyval)) :
  has_local_config_file h env = false →
  ∃ c, create_k8s_api_client h env secrets0 = Ok (mkApiClient c)
    ∧ (bundle_value secrets0 "KUBERNETES_VERIFY_SSL" = None →
       env !! "KUBERNETES_VERIFY_SSL" = None → verify_ssl c = false)
    ∧ (∀ v, bundle_value secrets0 "KUBERNETES_VERIFY_SSL" = Some v →
            v ≠ PyBool false → verify_ssl c = true)
    ∧ (∀ s, bundle_value secrets0 "KUBERNETES_VERIFY_SSL" = None →
            env !! "KUBERNETES_VERIFY_SSL" = Some s → verify_ssl c = true).
Proof.
  intros Hno. destruct (create_returns h env secrets0 Hno) as [c Hc].
  exists c. split; [done |].
  destruct (common_attributes h env secrets0 Hno c Hc) as (_ & _ & ->).
  split; [| split].
  - intros Hb He. by rewrite (lookup_default _ _ _ _ Hb He).
  - intros v Hb Hv. rewrite (lookup_bundle _ _ _ _ _ Hb).
    destruct v as [ | [] | | ]; done.
  - intros s Hb He. by rewrite (lookup_environ _ _ _ _ _ Hb He).
Qed.

Lemma verify_ssl_unset_means_no_witness :
  (∃ c, create_k8s_api_client bare_host scenario_env None = Ok (mkApiClient c)
        ∧ verify_ssl c = false)
  ∧ (∃ c, create_k8s_api_client bare_host {[ "KUBERNETES_VERIFY_SSL" := "false" ]} None
          = Ok (mkApiClient c)
        ∧ verify_ssl c = true).
Proof.
  split.
  - destruct (verify_ssl_unset_means_no bare_host scenario_env None eq_refl)
      as (c & Hc & Hunset & _).
    exists c. split; [exact Hc | apply Hunset; reflexivity].
  - destruct (verify_ssl_unset_means_no bare_host
                {[ "KUBERNETES_VERIFY_SSL" := "false" ]} None eq_refl)
      as (c & Hc & _ & _ & Henv).
    exists c. split; [exact Hc | apply (Henv "false"); reflexivity].
Defined.

(** The only way to switch verification off explicitly is the [False]
    object in the secrets; it also overrides the environment. *)
Lemma verify_ssl_False_in_secrets h (env : gmap string string)
    (secrets0 : option (gmap string pyval)) c :
  has_local_config_file h env = false →
  bundle_value secrets0 "KUBERNETES_VERIFY_SSL" = Some (PyBool false) →
  create_k8s_api_client h env secrets0 = Ok (mkApiClient c) →
  verify_ssl c = false.
Proof.
  intros Hno Hb Hc.
  destruct (common_attributes h env secrets0 Hno c Hc) as (_ & _ & ->).
  by rewrite (lookup_bundle _ _ _ _ _ Hb).
Qed.

(** C7. With the environment
    [{KUBERNETES_HOST: "https://10.0.0.1:6443", KUBERNETES_API_KEY: "abc"}],
    secrets that are [None] or empty and no local config file, the
    configuration has that host, [verify_ssl] false, the API key ["abc"]
    with prefix ["Bearer"], and the attributes of the other two modes are
    those of a new configuration; with an empty environment the host is
    ["http://localhost"]. *)
Theorem scenario_api_key_from_environment h (secrets0 : option (gmap string pyval)) :
  secrets0 = None ∨ secrets0 = Some ∅ →
  (has_local_config_file h scenario_env = false →
   ∃ c, create_k8s_api_client h scenario_env secrets0 = Ok (mkApiClient c)
     ∧ host c = PyStr "https://10.0.0.1:6443"
     ∧ verify_ssl c = false
     ∧ api_key c !! "authorization" = Some (PyStr "abc")
     ∧ api_key_prefix c !! "authorization" = Some (PyStr "Bearer")
     ∧ cert_file c = PyNone
     ∧ key_file c = key_file (new_configuration h)
     ∧ username c = username (new_configuration h)
     ∧ password c = password (new_configuration h))
  ∧ (has_local_config_file h ∅ = false →
     ∃ c, create_k8s_api_client h ∅ secrets0 = Ok (mkApiClient c)
       ∧ host c = PyStr "http://localhost").
Proof.
  intros Hs.
  assert (Hempty : secrets_or_empty secrets0 = ∅)
    by (destruct Hs as [-> | ->]; reflexivity).
  split; intros Hno.
  - destruct (create_returns h scenario_env secrets0 Hno) as [c Hc].
    exists c. split; [done |].
    destruct (common_attributes h _ _ Hno c Hc) as (_ & -> & ->).
    destruct (api_key_branch h _ _ Hno c Hc) as (-> & -> & -> & -> & -> & ->).
    { rewrite Hempty. reflexivity. }
    rewrite Hempty, !lookup_insert_eq. repeat split; reflexivity.
  - destruct (create_returns h ∅ secrets0 Hno) as [c Hc].
    exists c. split; [done |].
    destruct (common_attributes h _ _ Hno c Hc) as (_ & -> & _).
    rewrite Hempty. reflexivity.
Qed.

Lemma scenario_api_key_from_environment_witness :
  (∃ c, create_k8s_api_client bare_host scenario_env None = Ok (mkApiClient c)
     ∧ host c = PyStr "https://10.0.0.1:6443"
     ∧ verify_ssl c = false
     ∧ api_key c !! "authorization" = Some (PyStr "abc")
     ∧ api_key_prefix c !! "authorization" = Some (PyStr "Bearer")
     ∧ cert_file c = PyNone
     ∧ key_file c = key_file (new_configuration bare_host)
     ∧ username c = username (new_configuration bare_host)
     ∧ password c = password (new_configuration bare_host))
  ∧ (∃ c, create_k8s_api_client bare_host ∅ (Some ∅) = Ok (mkApiClient c)
       ∧ host c = PyStr "http://localhost").
Proof.
  split.
  - apply (proj1 (scenario_api_key_from_environment bare_host None (or_introl eq_refl))).
    reflexivity.
  - apply (proj2 (scenario_api_key_from_environment bare_host (Some ∅) (or_intror eq_refl))).
    reflexivity.
Defined.

(** ** The authentication branches *)

(** The branch is chosen by the presence of a key, not by what [lookup]
    returns for it: a caller value [None] for [KUBERNETES_API_KEY] still
    selects the first branch, before [KUBERNETES_CERT_FILE] and
    [KUBERNETES_USERNAME]. *)
Lemma presence_selects_the_branch h c :
  has_local_config_file h ∅ = false →
  create_k8s_api_client h ∅
    (Some {[ "KUBERNETES_API_KEY" := PyNone;
             "KUBERNETES_CERT_FILE" := PyStr "/etc/k8s/client.crt";
             "KUBERNETES_USERNAME" := PyStr "u" ]}) = Ok (mkApiClient c) →
  api_key c !! "authorization" = Some PyNone
  ∧ api_key_prefix c !! "authorization" = Some (PyStr "Bearer")
  ∧ cert_file c = PyNone
  ∧ key_file c = key_file (new_configuration h)
  ∧ username c = username (new_configuration h)
  ∧ password c = password (new_configuration h).
Proof.
  intros Hno Hc.
  destruct (api_key_branch h _ _ Hno c Hc) as (-> & -> & -> & -> & -> & ->);
    [reflexivity |].
  rewrite !lookup_insert_eq. repeat split; reflexivity.
Qed.

(** The value written to [cert_file] on line 67 is replaced on line 74:
    in the client-certificate branch the result is the same with or without
    [KUBERNETES_CA_CERT_FILE] in the environment. *)
Lemma ca_cert_file_lost_in_certificate_branch h (env : gmap string string) :
  has_local_config_file h env = false →
  env !! "KUBERNETES_API_KEY" = None →
  is_Some (env !! "KUBERNETES_CERT_FILE") →
  create_k8s_api_client h (delete "KUBERNETES_CA_CERT_FILE" env) None
  = create_k8s_api_client h env None.
Proof.
  intros Hno Hk Hcert.
  assert (Hno' : has_local_config_file h (delete "KUBERNETES_CA_CERT_FILE" env) = false).
  { rewrite <- Hno. apply has_local_config_file_KUBECONFIG.
    by apply lookup_delete_ne. }
  unfold create_k8s_api_client. rewrite Hno, Hno'.
  assert (Hd : ∀ k, k ≠ "KUBERNETES_CA_CERT_FILE" →
               delete "KUBERNETES_CA_CERT_FILE" env !! k = env !! k)
    by (intros k Hne; by apply lookup_delete_ne).
  assert (Hl : ∀ secrets k d, k ≠ "KUBERNETES_CA_CERT_FILE" →
               lookup (delete "KUBERNETES_CA_CERT_FILE" env) secrets k d
               = lookup env secrets k d).
  { intros secrets k d Hne. unfold lookup, environ_get. by rewrite Hd. }
  assert (Hh : ∀ k, k ≠ "KUBERNETES_CA_CERT_FILE" →
               dict_has (delete "KUBERNETES_CA_CERT_FILE" env) k = dict_has env k).
  { intros k Hne. unfold dict_has. by rewrite Hd. }
  rewrite !Hh by done.
  apply dict_has_false in Hk. apply dict_has_true in Hcert.
  assert (He : ∀ k, dict_has (secrets_or_empty None) k = false)
    by (intros k; apply dict_has_false, lookup_empty).
  rewrite Hk, Hcert, !He. cbn [orb]. do 2 f_equal.
  unfold set_key_file, set_cert_file. cbn.
  rewrite !Hl by done. reflexivity.
Qed.

(** C5. At the environment
    [{KUBERNETES_CA_CERT_FILE: "/etc/k8s/ca.crt", KUBERNETES_CERT_FILE: "/etc/k8s/client.crt"}]
    the attribute that received [lookup("KUBERNETES_CA_CERT_FILE")] is
    [cert_file], the same attribute the client-certificate branch assigns:
    the configuration ends with the client certificate in it, differs from
    [lookup("KUBERNETES_CA_CERT_FILE")], and is the one obtained without
    any CA path at all. *)
Theorem ca_cert_file_shares_cert_file h :
  has_local_config_file h both_certificates_env = false →
  ∃ c, create_k8s_api_client h both_certificates_env None = Ok (mkApiClient c)
    ∧ lookup both_certificates_env (secrets_or_empty None) "KUBERNETES_CA_CERT_FILE" PyNone
      = PyStr "/etc/k8s/ca.crt"
    ∧ cert_file c = PyStr "/etc/k8s/client.crt"
    ∧ create_k8s_api_client h {[ "KUBERNETES_CERT_FILE" := "/etc/k8s/client.crt" ]} None
      = Ok (mkApiClient c).
Proof.
  intros Hno. destruct (create_returns h _ None Hno) as [c Hc].
  exists c. split; [done |]. split; [reflexivity |]. split.
  - destruct (client_certificate_branch h _ _ Hno c Hc) as (_ & _ & -> & _);
      reflexivity.
  - rewrite <- Hc.
    rewrite <- (ca_cert_file_lost_in_certificate_branch h both_certificates_env Hno);
      [| reflexivity | by eexists].
    f_equal.
Qed.

Lemma ca_cert_file_shares_cert_file_witness :
  ∃ c, create_k8s_api_client bare_host both_certificates_env None = Ok (mkApiClient c)
    ∧ lookup both_certificates_env (secrets_or_empty None) "KUBERNETES_CA_CERT_FILE" PyNone
      = PyStr "/etc/k8s/ca.crt"
    ∧ cert_file c = PyStr "/etc/k8s/client.crt"
    ∧ create_k8s_api_client bare_host {[ "KUBERNETES_CERT_FILE" := "/etc/k8s/client.crt" ]} None
      = Ok (mkApiClient c).
Proof. apply (ca_cert_file_shares_cert_file bare_host). reflexivity. Defined.

Lemma truthy_PyNone_lookup env secrets k :
  key_present env secrets k = false → truthy (lookup env secrets k PyNone) = false.
Proof.
  intros [He Hs]%key_present_false. by rewrite (lookup_absent env secrets k PyNone He Hs).
Qed.

Lemma populated_modes_zero c :
  populated_modes c = 0 ↔
  api_key c = ∅ ∧ api_key_prefix c = ∅
  ∧ truthy (cert_file c) = false ∧ truthy (key_file c) = false
  ∧ truthy (username c) = false ∧ truthy (password c) = false.
Proof.
  unfold populated_modes, api_key_populated, client_certificate_populated,
    username_password_populated.
  split.
  - intros Hz.
    destruct (decide (api_key c = ∅)) as [Ha | Ha];
      [rewrite (bool_decide_eq_true_2 _ Ha) in Hz
      | rewrite (bool_decide_eq_false_2 _ Ha) in Hz; simpl in Hz; lia].
    destruct (decide (api_key_prefix c = ∅)) as [Hp | Hp];
      [rewrite (bool_decide_eq_true_2 _ Hp) in Hz
      | rewrite (bool_decide_eq_false_2 _ Hp) in Hz; simpl in Hz; lia].
    destruct (truthy (cert_file c)), (truthy (key_file c)),
      (truthy (username c)), (truthy (password c)); simpl in Hz; try lia.
    done.
  - intros (Ha & Hp & -> & -> & -> & ->).
    by rewrite (bool_decide_eq_true_2 _ Ha), (bool_decide_eq_true_2 _ Hp).
Qed.

(** X6. What the three branches give when [KUBERNETES_CA_CERT_FILE] is set
    nowhere and a new configuration carries no authentication: at most
    one group of authentication attributes is populated, and none when
    [KUBERNETES_API_KEY], [KUBERNETES_CERT_FILE] and [KUBERNETES_USERNAME]
    are all absent. *)
Lemma one_mode_when_ca_unset h (env : gmap string string)
    (secrets0 : option (gmap string pyval)) :
  has_local_config_file h env = false →
  populated_modes (new_configuration h) = 0 →
  key_present env (secrets_or_empty secrets0) "KUBERNETES_CA_CERT_FILE" = false →
  ∃ c, create_k8s_api_client h env secrets0 = Ok (mkApiClient c)
    ∧ (populated_modes c ≤ 1)%nat
    ∧ (key_present env (secrets_or_empty secrets0) "KUBERNETES_API_KEY" = false →
       key_present env (secrets_or_empty secrets0) "KUBERNETES_CERT_FILE" = false →
       key_present env (secrets_or_empty secrets0) "KUBERNETES_USERNAME" = false →
       populated_modes c = 0).
Proof.
  intros Hno (Ha & Hp & Hcf & Hkf & Hu & Hpw)%populated_modes_zero Hca.
  destruct (create_returns h env secrets0 Hno) as [c Hc].
  exists c. split; [done |].
  pose proof (truthy_PyNone_lookup _ _ _ Hca) as Hcav.
  unfold populated_modes, api_key_populated, client_certificate_populated,
    username_password_populated.
  destruct (key_present env (secrets_or_empty secrets0) "KUBERNETES_API_KEY") eqn:Hk;
    [| destruct (key_present env (secrets_or_empty secrets0) "KUBERNETES_CERT_FILE") eqn:Hcert;
       [| destruct (key_present env (secrets_or_empty secrets0) "KUBERNETES_USERNAME") eqn:Huser]].
  - destruct (api_key_branch h _ _ Hno c Hc Hk) as (_ & _ & -> & -> & -> & ->).
    rewrite Hcav, Hkf, Hu, Hpw. split; [| done].
    cbn [orb negb]; destruct (_ || _); simpl; lia.
  - destruct (client_certificate_branch h _ _ Hno c Hc Hk Hcert)
      as (-> & -> & _ & _ & -> & ->).
    rewrite Hu, Hpw, (bool_decide_eq_true_2 _ Ha), (bool_decide_eq_true_2 _ Hp).
    split; [| done]. cbn [orb negb]; destruct (_ || _); simpl; lia.
  - destruct (username_password_branch h _ _ Hno c Hc Hk Hcert Huser)
      as (-> & -> & -> & -> & _ & _).
    rewrite Hcav, Hkf, (bool_decide_eq_true_2 _ Ha), (bool_decide_eq_true_2 _ Hp).
    split; [| done]. cbn [orb negb]; destruct (_ || _); simpl; lia.
  - destruct (no_branch h _ _ Hno c Hc Hk Hcert Huser)
      as (-> & -> & -> & -> & -> & ->).
    rewrite Hcav, Hkf, Hu, Hpw, (bool_decide_eq_true_2 _ Ha), (bool_decide_eq_true_2 _ Hp).
    simpl. split; [lia | done].
Qed.

(** C3. At the environment with [KUBERNETES_API_KEY],
    [KUBERNETES_CERT_FILE] and [KUBERNETES_CA_CERT_FILE], the first branch
    runs ([api_key] and [api_key_prefix] get their entry, [key_file] stays
    as in a new configuration), yet [cert_file] holds the path written on
    line 67: a certificate attribute is populated in API-key mode. *)
Theorem api_key_mode_with_cert_file h :
  has_local_config_file h api_key_and_certificates_env = false →
  ∃ c, create_k8s_api_client h api_key_and_certificates_env None = Ok (mkApiClient c)
    ∧ api_key c !! "authorization" = Some (PyStr "abc")
    ∧ api_key_prefix c !! "authorization" = Some (PyStr "Bearer")
    ∧ key_file c = key_file (new_configuration h)
    ∧ cert_file c = PyStr "/etc/k8s/ca.crt"
    ∧ client_certificate_populated c = true.
Proof.
  intros Hno. destruct (create_returns h _ None Hno) as [c Hc].
  exists c. split; [done |].
  destruct (api_key_branch h _ _ Hno c Hc) as (-> & -> & Hcf & -> & _);
    [reflexivity |].
  unfold client_certificate_populated. rewrite Hcf, !lookup_insert_eq.
  repeat split; reflexivity.
Qed.

Lemma api_key_mode_with_cert_file_witness :
  ∃ c, create_k8s_api_client bare_host api_key_and_certificates_env None
       = Ok (mkApiClient c)
    ∧ api_key c !! "authorization" = Some (PyStr "abc")
    ∧ api_key_prefix c !! "authorization" = Some (PyStr "Bearer")
    ∧ key_file c = key_file (new_configuration bare_host)
    ∧ cert_file c = PyStr "/etc/k8s/ca.crt"
    ∧ client_certificate_populated c = true.
Proof. apply (api_key_mode_with_cert_file bare_host). reflexivity. Defined.

(** C6. At the environment
    [{KUBERNETES_API_KEY: "abc", KUBERNETES_CA_CERT_FILE: "/etc/k8s/ca.crt"}]
    the configuration has both the API-key attributes and a
    client-certificate attribute populated: two modes at once. *)
Theorem api_key_and_ca_populate_two_modes h :
  has_local_config_file h api_key_and_ca_env = false →
  ∃ c, create_k8s_api_client h api_key_and_ca_env None = Ok (mkApiClient c)
    ∧ api_key c !! "authorization" = Some (PyStr "abc")
    ∧ cert_file c = PyStr "/etc/k8s/ca.crt"
    ∧ api_key_populated c = true
    ∧ client_certificate_populated c = true
    ∧ (2 ≤ populated_modes c)%nat.
Proof.
  intros Hno. destruct (create_returns h _ None Hno) as [c Hc].
  exists c. split; [done |].
  destruct (api_key_branch h _ _ Hno c Hc) as (Hak & _ & Hcf & _);
    [reflexivity |].
  assert (Hapi : api_key_populated c = true).
  { unfold api_key_populated. rewrite Hak.
    rewrite bool_decide_eq_false_2 by apply insert_non_empty. reflexivity. }
  assert (Hcert : client_certificate_populated c = true).
  { unfold client_certificate_populated. rewrite Hcf. reflexivity. }
  rewrite Hak, Hcf, lookup_insert_eq.
  repeat split; try done.
  unfold populated_modes. rewrite Hapi, Hcert.
  destruct (username_password_populated c); simpl; lia.
Qed.

Lemma api_key_and_ca_populate_two_modes_witness :
  ∃ c, create_k8s_api_client bare_host api_key_and_ca_env None = Ok (mkApiClient c)
    ∧ api_key c !! "authorization" = Some (PyStr "abc")
    ∧ cert_file c = PyStr "/etc/k8s/ca.crt"
    ∧ api_key_populated c = true
    ∧ client_certificate_populated c = true
    ∧ (2 ≤ populated_modes c)%nat.
Proof. apply (api_key_and_ca_populate_two_modes bare_host). reflexivity. Defined.

(** With [KUBERNETES_CA_CERT_FILE] alone, none of [KUBERNETES_API_KEY],
    [KUBERNETES_CERT_FILE], [KUBERNETES_USERNAME] is present and the
    configuration still has [cert_file] set. *)
Lemma ca_alone_sets_cert_file h c :
  has_local_config_file h {[ "KUBERNETES_CA_CERT_FILE" := "/etc/k8s/ca.crt" ]} = false →
  create_k8s_api_client h {[ "KUBERNETES_CA_CERT_FILE" := "/etc/k8s/ca.crt" ]} None
  = Ok (mkApiClient c) →
  cert_file c = PyStr "/etc/k8s/ca.crt" ∧ client_certificate_populated c = true.
Proof.
  intros Hno Hc.
  destruct (no_branch h _ _ Hno c Hc) as (_ & _ & Hcf & _); try reflexivity.
  unfold client_certificate_populated. by rewrite Hcf.
Qed.

(** ** Discovery *)

(** [explore_kubernetes_system] without a local config file: two log
    records, the second a warning, and the result [None]. *)
Lemma explore_without_local_config h (env : gmap string string) :
  has_local_config_file h env = false →
  explore_kubernetes_system h env
  = Logged [ (INFO, "Discovering Kubernetes system");
             (WARNING, "Could not locate the default kubeconfig file") ]
      (Ok None).
Proof. intros Hno. unfold explore_kubernetes_system. rewrite Hno. reflexivity. Qed.

(** C8. [discover(True)] without a local config file: the exploration
    returns [None] after logging a warning and does not raise, and the
    discovery record comes back with its name, version, type and the
    exported activities, its [system] entry being [None]. *)
Theorem discover_without_local_config h (env : gmap string string)
    (exported : list DiscoveredActivities) :
  has_local_config_file h env = false →
  load_exported_activities h = Ok exported →
  explore_kubernetes_system h env
  = Logged [ (INFO, "Discovering Kubernetes system");
             (WARNING, "Could not locate the default kubeconfig file") ]
      (Ok None)
  ∧ discover h env true
    = Logged [ (INFO, "Discovering capabilities from chaostoolkit-kubernetes");
               (INFO, "Discovering Kubernetes system");
               (WARNING, "Could not locate the default kubeconfig file") ]
        (Ok (mkDiscovery "chaostoolkit-kubernetes" "0.11.0" "kubernetes" exported None)).
Proof.
  intros Hno Hact. split; [by apply explore_without_local_config |].
  unfold discover. rewrite Hact, (explore_without_local_config h env Hno).
  reflexivity.
Qed.

Lemma discover_without_local_config_witness :
  explore_kubernetes_system bare_host scenario_env
  = Logged [ (INFO, "Discovering Kubernetes system");
             (WARNING, "Could not locate the default kubeconfig file") ]
      (Ok None)
  ∧ discover bare_host scenario_env true
    = Logged [ (INFO, "Discovering capabilities from chaostoolkit-kubernetes");
               (INFO, "Discovering Kubernetes system");
               (WARNING, "Could not locate the default kubeconfig file") ]
        (Ok (mkDiscovery "chaostoolkit-kubernetes" "0.11.0" "kubernetes" [] None)).
Proof.
  apply (discover_without_local_config bare_host scenario_env []); reflexivity.
Defined.

(** *** The loop over the namespaces *)

Section Loop.

Variable h : Host.
Variable api : ApiClient.

(** Writing both entries again erases what an earlier iteration wrote. *)
Lemma overwrite_entries (info : gmap string json) (p p' d d' : json) :
  <["deployments" := d]> (<["pods" := p]> (<["deployments" := d']> (<["pods" := p']> info)))
  = <["deployments" := d]> (<["pods" := p]> info).
Proof.
  apply map_eq. intros k.
  destruct (decide (k = "deployments")) as [-> | Hd];
    [by rewrite !lookup_insert_eq |].
  rewrite !(lookup_insert_ne _ "deployments") by done.
  destruct (decide (k = "pods")) as [-> | Hp];
    [by rewrite !lookup_insert_eq |].
  rewrite !(lookup_insert_ne _ "pods") by done.
  rewrite ?(lookup_insert_ne _ "deployments") by done.
  rewrite ?(lookup_insert_ne _ "pods") by done.
  reflexivity.
Qed.

Lemma explore_namespace_ok (info : gmap string json) (ns p d : json) :
  pods_of h api ns = Ok p →
  deployments_of h api ns = Ok d →
  explore_namespace h api info ns
  = Ok (<["deployments" := d]> (<["pods" := p]> info)).
Proof. intros Hp Hd. unfold explore_namespace. by rewrite Hp, Hd. Qed.

(** After a non-empty run the two entries are those of the last
    namespace, on top of the dictionary the loop started with. *)
Lemma for_namespaces_last (nss : list json) (ns_last p d : json) :
  Forall (fun ns => ∃ p' d', pods_of h api ns = Ok p' ∧ deployments_of h api ns = Ok d') nss →
  pods_of h api ns_last = Ok p →
  deployments_of h api ns_last = Ok d →
  ∀ info,
    for_namespaces h api (nss ++ [ns_last]) info
    = Ok (<["deployments" := d]> (<["pods" := p]> info)).
Proof.
  intros Hall Hp Hd.
  induction Hall as [| ns nss (p' & d' & Hp' & Hd') _ IH]; intros info; simpl.
  - by rewrite (explore_namespace_ok info ns_last p d Hp Hd).
  - rewrite (explore_namespace_ok info ns p' d' Hp' Hd'). simpl.
    rewrite IH. by rewrite overwrite_entries.
Qed.

End Loop.

(** C9. With a local config file and a cluster whose namespace list ends
    with [ns_last], every call succeeding, [explore_kubernetes_system]
    returns the dictionary whose ["pods"] and ["deployments"] entries are
    those fetched for [ns_last] and which has no other entry: nothing
    fetched for the namespaces before it is kept. *)
Theorem last_namespace_survives h (env : gmap string string) (api : ApiClient)
    (body : string) (document items : json) (nss : list json) (ns_last : json) :
  has_local_config_file h env = true →
  new_client_from_config h = Ok api →
  list_namespace h api = Ok body →
  json_loads h body = Ok document →
  subscript document "items" = Ok items →
  iterate items = Ok (nss ++ [ns_last]) →
  Forall (fun ns => ∃ p d, pods_of h api ns = Ok p ∧ deployments_of h api ns = Ok d)
    (nss ++ [ns_last]) →
  ∃ pods deployments,
    pods_of h api ns_last = Ok pods
    ∧ deployments_of h api ns_last = Ok deployments
    ∧ explore_kubernetes_system h env
      = Logged [ (INFO, "Discovering Kubernetes system") ]
          (Ok (Some (<["deployments" := deployments]> (<["pods" := pods]> ∅)))).
Proof.
  intros Hlocal Hapi Hbody Hdoc Hitems Hiter Hall.
  apply Forall_app in Hall as [Hall Hlast].
  apply Forall_singleton in Hlast as (p & d & Hp & Hd).
  exists p, d. split; [done |]. split; [done |].
  unfold explore_kubernetes_system. rewrite Hlocal, Hapi. simpl.
  rewrite Hbody. simpl. rewrite Hdoc. simpl. rewrite Hitems. simpl.
  rewrite Hiter. simpl.
  by rewrite (for_namespaces_last h api nss ns_last p d Hall Hp Hd).
Qed.

Lemma last_namespace_survives_witness :
  ∃ pods deployments,
    pods_of dev_host sample_cluster_client (sample_namespace "kube-system") = Ok pods
    ∧ deployments_of dev_host sample_cluster_client (sample_namespace "kube-system")
      = Ok deployments
    ∧ explore_kubernetes_system dev_host ∅
      = Logged [ (INFO, "Discovering Kubernetes system") ]
          (Ok (Some (<["deployments" := deployments]> (<["pods" := pods]> ∅)))).
Proof.
  apply (last_namespace_survives dev_host ∅ sample_cluster_client "namespaces"
           (JObj [("kind", JStr "NamespaceList");
                  ("items", JArr [sample_namespace "default";
                                  sample_namespace "kube-system"])])
           (JArr [sample_namespace "default"; sample_namespace "kube-system"])
           [sample_namespace "default"] (sample_namespace "kube-system"));
    try reflexivity.
  repeat constructor; eexists _, _; split; reflexivity.
Defined.

(** On the sample cluster the pods and deployments kept are those of
    [kube-system], the second of its two namespaces. *)
Example explore_sample_cluster :
  explore_kubernetes_system dev_host ∅
  = Logged [ (INFO, "Discovering Kubernetes system") ]
      (Ok (Some (<["deployments" := JObj [("kind", JStr "deployments of kube-system")]]>
                   (<["pods" := JObj [("kind", JStr "pods of kube-system")]]> ∅)))).
Proof. reflexivity. Qed.

(** * Further properties *)

(** ** What [create_k8s_api_client] reads *)

Lemma lookup_agree (env env' : gmap string string)
    (secrets0 secrets0' : option (gmap string pyval)) (k : string) (d : pyval) :
  env !! k = env' !! k ∧ bundle_value secrets0 k = bundle_value secrets0' k →
  lookup env (secrets_or_empty secrets0) k d
  = lookup env' (secrets_or_empty secrets0') k d.
Proof.
  intros [He Hb]. unfold lookup, dict_get, environ_get.
  by rewrite !secrets_or_empty_lookup, He, Hb.
Qed.

Lemma key_present_agree (env env' : gmap string string)
    (secrets0 secrets0' : option (gmap string pyval)) (k : string) :
  env !! k = env' !! k ∧ bundle_value secrets0 k = bundle_value secrets0' k →
  key_present env (secrets_or_empty secrets0) k
  = key_present env' (secrets_or_empty secrets0') k.
Proof.
  intros [He Hb]. unfold key_present, dict_has.
  by rewrite !secrets_or_empty_lookup, He, Hb.
Qed.

(** Splits a hypothesis [agree_on [k1; ...; kn] ...] into one fact per name. *)
Ltac split_agreement H :=
  unfold agree_on in H; simpl in H;
  repeat match type of H with
         | Forall _ (_ :: _) =>
             let Hk := fresh "Hk" in
             apply Forall_cons in H as [Hk H]
         end;
  clear H.

(** Enters the body of the function past the local-config test, with the
    branch tests written with [key_present]. *)
Ltac enter_body Hno :=
  unfold create_k8s_api_client; cbv zeta; rewrite Hno;
  repeat match goal with
         | |- context [dict_has ?e ?k || dict_has ?s ?k] =>
             change (dict_has e k || dict_has s k) with (key_present e s k)
         end.



(** X2. Past the local-config test the result depends on the names of
    [relevant_keys] only: in API-key mode the certificate and
    username names are not consulted, in client-certificate mode neither
    the CA path nor the username names, and a prefix, key file or password
    without its leading name changes nothing. *)
Theorem create_depends_on_relevant_keys h (env env' : gmap string string)
    (secrets0 secrets0' : option (gmap string pyval)) :
  has_local_config_file h env = false →
  has_local_config_file h env' = false →
  agree_on (relevant_keys env (secrets_or_empty secrets0)) env env' secrets0 secrets0' →
  create_k8s_api_client h env' secrets0' = create_k8s_api_client h env secrets0.
Proof.
  intros Hno Hno' Hagree. unfold relevant_keys in Hagree.
  enter_body Hno. enter_body Hno'.
  destruct (key_present env (secrets_or_empty secrets0) "KUBERNETES_API_KEY") eqn:Hk;
    [| destruct (key_present env (secrets_or_empty secrets0) "KUBERNETES_CERT_FILE") eqn:Hc;
       [| destruct (key_present env (secrets_or_empty secrets0) "KUBERNETES_USERNAME") eqn:Hu]];
    split_agreement Hagree;
    repeat match goal with
           | Hk : _ !! ?k = _ !! ?k ∧ _ |- _ =>
               try rewrite <- (key_present_agree _ _ _ _ k Hk);
               rewrite <- ?(lookup_agree _ _ _ _ k _ Hk);
               clear Hk
           end;
    rewrite ?Hk, ?Hc, ?Hu; reflexivity.
Qed.

Lemma create_depends_on_relevant_keys_witness :
  create_k8s_api_client bare_host
    {[ "KUBERNETES_CERT_FILE" := "/etc/k8s/client.crt";
       "KUBERNETES_USERNAME" := "admin" ]}
    (Some {[ "KUBERNETES_PASSWORD" := PyStr "hunter2" ]})
  = create_k8s_api_client bare_host both_certificates_env None.
Proof.
  apply (create_depends_on_relevant_keys bare_host both_certificates_env
           {[ "KUBERNETES_CERT_FILE" := "/etc/k8s/client.crt";
              "KUBERNETES_USERNAME" := "admin" ]}
           None (Some {[ "KUBERNETES_PASSWORD" := PyStr "hunter2" ]}));
    try reflexivity.
  repeat constructor.
Defined.

(** ** Verification, the config file and the loader *)

(** X3. Without a local config file, certificate verification is off in
    exactly two cases: [KUBERNETES_VERIFY_SSL] is set nowhere, or the
    secrets hold the [False] object for it. No string of the environment
    switches it off, and [None], [0] or ["false"] in the secrets switch it
    on. *)
Theorem verify_ssl_off_iff h (env : gmap string string)
    (secrets0 : option (gmap string pyval)) c :
  has_local_config_file h env = false →
  create_k8s_api_client h env secrets0 = Ok (mkApiClient c) →
  verify_ssl c = false
  ↔ bundle_value secrets0 "KUBERNETES_VERIFY_SSL" = Some (PyBool false)
    ∨ (bundle_value secrets0 "KUBERNETES_VERIFY_SSL" = None
       ∧ env !! "KUBERNETES_VERIFY_SSL" = None).
Proof.
  intros Hno Hc.
  destruct (common_attributes h env secrets0 Hno c Hc) as (_ & _ & ->).
  destruct (bundle_value secrets0 "KUBERNETES_VERIFY_SSL") as [v |] eqn:Hb.
  - rewrite (lookup_bundle _ _ _ _ _ Hb). split.
    + intros Hv. left. destruct v as [ | [] | | ]; simpl in Hv; congruence.
    + intros [[= ->] | [[=] _]]. reflexivity.
  - destruct (env !! "KUBERNETES_VERIFY_SSL") as [s |] eqn:He.
    + rewrite (lookup_environ _ _ _ _ _ Hb He). split; [done |].
      intros [[=] | [_ [=]]].
    + rewrite (lookup_default _ _ _ _ Hb He). split; [by right | done].
Qed.

Lemma verify_ssl_off_iff_witness :
  ∃ c, create_k8s_api_client bare_host {[ "KUBERNETES_VERIFY_SSL" := "true" ]}
         (Some {[ "KUBERNETES_VERIFY_SSL" := PyBool false ]}) = Ok (mkApiClient c)
    ∧ verify_ssl c = false.
Proof.
  eexists. split; [reflexivity |].
  apply (proj2 (verify_ssl_off_iff bare_host {[ "KUBERNETES_VERIFY_SSL" := "true" ]}
                  (Some {[ "KUBERNETES_VERIFY_SSL" := PyBool false ]}) _ eq_refl eq_refl)).
  left. reflexivity.
Defined.

(** X4. The default path is used only when [KUBECONFIG] is unset: when the
    variable names a file that does not exist, the function builds the
    client from the environment and the secrets, whether or not
    [~/.kube/config] exists, and the loader is not called. *)
Theorem missing_KUBECONFIG_file_hides_default h (env : gmap string string)
    (secrets0 : option (gmap string pyval)) (p : string) :
  env !! "KUBECONFIG" = Some p →
  path_exists h (expanduser h p) = false →
  ∃ c, create_k8s_api_client h env secrets0 = Ok (mkApiClient c)
    ∧ debug c = true
    ∧ host c = lookup env (secrets_or_empty secrets0) "KUBERNETES_HOST"
                 (PyStr "http://localhost").
Proof.
  intros Hk Hp.
  assert (Hno : has_local_config_file h env = false)
    by (by rewrite has_local_config_file_path, Hk).
  destruct (create_returns h env secrets0 Hno) as [c Hc].
  exists c. split; [done |].
  by destruct (common_attributes h env secrets0 Hno c Hc) as (? & ? & _).
Qed.

Lemma missing_KUBECONFIG_file_hides_default_witness :
  path_exists dev_host (expanduser dev_host "~/.kube/config") = true
  ∧ ∃ c, create_k8s_api_client dev_host
           {[ "KUBECONFIG" := "/tmp/missing"; "KUBERNETES_HOST" := "https://10.0.0.1:6443" ]}
           None = Ok (mkApiClient c)
      ∧ debug c = true
      ∧ host c = lookup {[ "KUBECONFIG" := "/tmp/missing";
                           "KUBERNETES_HOST" := "https://10.0.0.1:6443" ]}
                   (secrets_or_empty None) "KUBERNETES_HOST" (PyStr "http://localhost").
Proof.
  split; [reflexivity |].
  apply (missing_KUBECONFIG_file_hides_default dev_host
           {[ "KUBECONFIG" := "/tmp/missing"; "KUBERNETES_HOST" := "https://10.0.0.1:6443" ]}
           None "/tmp/missing"); reflexivity.
Defined.

(** X5. A local config file that cannot be loaded is not a reason to fall
    back: when the file exists and [config.new_client_from_config()]
    raises, [create_k8s_api_client] raises the same exception whatever
    credentials the environment and the secrets hold, and so does the
    exploration, after its first log record. *)
Theorem loader_failure_is_raised h (env : gmap string string)
    (secrets0 : option (gmap string pyval)) (e : exn) :
  has_local_config_file h env = true →
  new_client_from_config h = Raise e →
  create_k8s_api_client h env secrets0 = Raise e
  ∧ explore_kubernetes_system h env
    = Logged [ (INFO, "Discovering Kubernetes system") ] (Raise e).
Proof.
  intros Hl He. split.
  - unfold create_k8s_api_client. by rewrite Hl.
  - unfold explore_kubernetes_system. rewrite Hl, He. reflexivity.
Qed.

Lemma loader_failure_is_raised_witness :
  create_k8s_api_client broken_host scenario_env
    (Some {[ "KUBERNETES_USERNAME" := PyStr "u" ]})
  = Raise (ExternalError "invalid kubeconfig")
  ∧ explore_kubernetes_system broken_host scenario_env
    = Logged [ (INFO, "Discovering Kubernetes system") ]
        (Raise (ExternalError "invalid kubeconfig")).
Proof.
  apply (loader_failure_is_raised broken_host scenario_env
           (Some {[ "KUBERNETES_USERNAME" := PyStr "u" ]})); reflexivity.
Defined.

(** [one_mode_when_ca_unset] on a machine whose new configurations carry
    no authentication, with all three leading names set. *)
Lemma one_mode_when_ca_unset_witness :
  ∃ c, create_k8s_api_client bare_host
         {[ "KUBERNETES_API_KEY" := "abc"; "KUBERNETES_USERNAME" := "admin" ]}
         (Some {[ "KUBERNETES_CERT_FILE" := PyStr "/etc/k8s/client.crt" ]})
       = Ok (mkApiClient c)
    ∧ (populated_modes c ≤ 1)%nat.
Proof.
  destruct (one_mode_when_ca_unset bare_host
              {[ "KUBERNETES_API_KEY" := "abc"; "KUBERNETES_USERNAME" := "admin" ]}
              (Some {[ "KUBERNETES_CERT_FILE" := PyStr "/etc/k8s/client.crt" ]})
              eq_refl) as (c & Hc & Hone & _); [reflexivity | reflexivity |].
  exists c. split; [exact Hc | exact Hone].
Defined.

(** ** [discover] *)

(** X7. [discover(False)] looks at neither the environment, the file
    system nor the cluster: for every environment it logs one record and
    returns the record with the exported activities and no system
    information. *)
Theorem discover_false_skips_exploration h (env : gmap string string)
    (exported : list DiscoveredActivities) :
  load_exported_activities h = Ok exported →
  discover h env false
  = Logged [ (INFO, "Discovering capabilities from chaostoolkit-kubernetes") ]
      (Ok (mkDiscovery "chaostoolkit-kubernetes" "0.11.0" "kubernetes" exported None)).
Proof. intros Hact. unfold discover. rewrite Hact. reflexivity. Qed.

Lemma discover_false_skips_exploration_witness :
  discover broken_host scenario_env false
  = Logged [ (INFO, "Discovering capabilities from chaostoolkit-kubernetes") ]
      (Ok (mkDiscovery "chaostoolkit-kubernetes" "0.11.0" "kubernetes"
             [ JStr "chaosk8s.actions"; JStr "chaosk8s.probes";
               JStr "chaosk8s.pod.actions"; JStr "chaosk8s.pod.probes" ] None)).
Proof.
  apply (discover_false_skips_exploration broken_host scenario_env). reflexivity.
Defined.

(** X8. When one of the four activity discoveries raises, [discover]
    raises the same exception having logged its first record only: the
    exploration is not started, with [discover_system] true or false. *)
Theorem discover_activity_failure h (env : gmap string string)
    (discover_system : bool) (e : exn) :
  load_exported_activities h = Raise e →
  discover h env discover_system
  = Logged [ (INFO, "Discovering capabilities from chaostoolkit-kubernetes") ]
      (Raise e).
Proof. intros Hact. unfold discover. rewrite Hact. reflexivity. Qed.

(** The exception of [load_exported_activities] is that of the first call
    that raises, in the order actions, probes, pod actions, pod probes. *)
Lemma load_exported_activities_first_failure h (e : exn) :
  discover_actions h "chaosk8s.actions" = Raise e
  ∨ (is_Ok_res (discover_actions h "chaosk8s.actions")
     ∧ discover_probes h "chaosk8s.probes" = Raise e)
  ∨ (is_Ok_res (discover_actions h "chaosk8s.actions")
     ∧ is_Ok_res (discover_probes h "chaosk8s.probes")
     ∧ discover_actions h "chaosk8s.pod.actions" = Raise e)
  ∨ (is_Ok_res (discover_actions h "chaosk8s.actions")
     ∧ is_Ok_res (discover_probes h "chaosk8s.probes")
     ∧ is_Ok_res (discover_actions h "chaosk8s.pod.actions")
     ∧ discover_probes h "chaosk8s.pod.probes" = Raise e) →
  load_exported_activities h = Raise e.
Proof.
  unfold load_exported_activities, is_Ok_res.
  intros [-> | [([a1 ->] & ->) | [([a1 ->] & [a2 ->] & ->)
                                 | ([a1 ->] & [a2 ->] & [a3 ->] & ->)]]];
    reflexivity.
Qed.

Lemma discover_activity_failure_witness :
  discover no_pod_probes_host ∅ true
  = Logged [ (INFO, "Discovering capabilities from chaostoolkit-kubernetes") ]
      (Raise (ExternalError "cannot import chaosk8s.pod.probes")).
Proof.
  apply (discover_activity_failure no_pod_probes_host ∅ true). reflexivity.
Defined.

(** ** [explore_kubernetes_system] with a local config file *)

(** With a local config file the function logs one record and its
    outcome is that of the calls of lines 123 to 140. *)
Lemma explore_with_local_config h (env : gmap string string) :
  has_local_config_file h env = true →
  explore_kubernetes_system h env
  = Logged [ (INFO, "Discovering Kubernetes system") ]
      (api ← new_client_from_config h;
       namespaces ← list_namespace h api;
       document ← json_loads h namespaces;
       items ← subscript document "items";
       items ← iterate items;
       info ← for_namespaces h api items ∅;
       Ok (Some info)).
Proof.
  intros Hl. unfold explore_kubernetes_system. rewrite Hl. reflexivity.
Qed.

(** X9. The result [None] means that there is no local config file and
    nothing else: with a file the function raises or returns a
    dictionary. *)
Theorem explore_None_iff_no_local_config h (env : gmap string string) :
  outcome (explore_kubernetes_system h env) = Ok None
  ↔ has_local_config_file h env = false.
Proof.
  split.
  - destruct (has_local_config_file h env) eqn:Hl; [| done].
    rewrite (explore_with_local_config h env Hl). simpl.
    destruct (new_client_from_config h) as [api |]; simpl; [| done].
    destruct (list_namespace h api) as [body |]; simpl; [| done].
    destruct (json_loads h body) as [document |]; simpl; [| done].
    destruct (subscript document "items") as [items |]; simpl; [| done].
    destruct (iterate items) as [nss |]; simpl; [| done].
    destruct (for_namespaces h api nss ∅); simpl; done.
  - intros Hno. by rewrite (explore_without_local_config h env Hno).
Qed.

(** X10. A cluster without namespaces gives the empty dictionary, not
    [None]: the result has neither a ["pods"] nor a ["deployments"]
    entry. *)
Theorem explore_no_namespaces h (env : gmap string string) (api : ApiClient)
    (body : string) (document items : json) :
  has_local_config_file h env = true →
  new_client_from_config h = Ok api →
  list_namespace h api = Ok body →
  json_loads h body = Ok document →
  subscript document "items" = Ok items →
  iterate items = Ok [] →
  explore_kubernetes_system h env
  = Logged [ (INFO, "Discovering Kubernetes system") ] (Ok (Some ∅)).
Proof.
  intros Hl Hapi Hbody Hdoc Hitems Hiter.
  rewrite (explore_with_local_config h env Hl).
  rewrite Hapi; simpl. rewrite Hbody; simpl. rewrite Hdoc; simpl.
  rewrite Hitems; simpl. rewrite Hiter. reflexivity.
Qed.

Lemma explore_no_namespaces_witness :
  explore_kubernetes_system empty_cluster_host ∅
  = Logged [ (INFO, "Discovering Kubernetes system") ] (Ok (Some ∅)).
Proof.
  apply (explore_no_namespaces empty_cluster_host ∅ sample_cluster_client
           "no namespaces"
           (JObj [("kind", JStr "NamespaceList"); ("items", JArr [])])
           (JArr [])); reflexivity.
Defined.

(** X11. A document without an ["items"] entry, such as an error status
    of the API server, makes the exploration raise [KeyError('items')]. *)
Theorem explore_missing_items h (env : gmap string string) (api : ApiClient)
    (body : string) (kvs : list (string * json)) :
  has_local_config_file h env = true →
  new_client_from_config h = Ok api →
  list_namespace h api = Ok body →
  json_loads h body = Ok (JObj kvs) →
  assoc_find "items" kvs = None →
  explore_kubernetes_system h env
  = Logged [ (INFO, "Discovering Kubernetes system") ] (Raise (KeyError "items")).
Proof.
  intros Hl Hapi Hbody Hdoc Hitems.
  rewrite (explore_with_local_config h env Hl).
  rewrite Hapi; simpl. rewrite Hbody; simpl. rewrite Hdoc; simpl.
  by rewrite Hitems.
Qed.

Lemma explore_missing_items_witness :
  explore_kubernetes_system status_document_host ∅
  = Logged [ (INFO, "Discovering Kubernetes system") ] (Raise (KeyError "items")).
Proof.
  apply (explore_missing_items status_document_host ∅ sample_cluster_client
           "status" [("kind", JStr "Status"); ("code", JNum 403)]); reflexivity.
Defined.

(** *** Failures and the shape of the result *)

Section LoopOutcomes.

Variable h : Host.
Variable api : ApiClient.

(** An iteration that returns has written both entries. *)
Lemma explore_namespace_inv (info info' : gmap string json) (ns : json) :
  explore_namespace h api info ns = Ok info' →
  ∃ p d, pods_of h api ns = Ok p ∧ deployments_of h api ns = Ok d
         ∧ info' = <["deployments" := d]> (<["pods" := p]> info).
Proof.
  unfold explore_namespace.
  destruct (pods_of h api ns) as [p |]; simpl; [| done].
  destruct (deployments_of h api ns) as [d |]; simpl; [| done].
  intros [= <-]. by exists p, d.
Qed.

(** An iteration raises what the first failing fetch raises. *)
Lemma explore_namespace_raises (info : gmap string json) (ns : json) (e : exn) :
  pods_of h api ns = Raise e
  ∨ (is_Ok_res (pods_of h api ns) ∧ deployments_of h api ns = Raise e) →
  explore_namespace h api info ns = Raise e.
Proof.
  unfold explore_namespace. intros [-> | [[p ->] ->]]; reflexivity.
Qed.

(** The loop stops at the first namespace whose iteration raises. *)
Lemma for_namespaces_raises (before after : list json) (ns : json) (e : exn) :
  Forall (fun ns' => is_Ok_res (pods_of h api ns') ∧ is_Ok_res (deployments_of h api ns'))
    before →
  (∀ info, explore_namespace h api info ns = Raise e) →
  ∀ info, for_namespaces h api (before ++ ns :: after) info = Raise e.
Proof.
  intros Hall Hns.
  induction Hall as [| ns' before [[p Hp] [d Hd]] _ IH]; intros info; simpl.
  - by rewrite Hns.
  - rewrite (explore_namespace_ok h api info ns' p d Hp Hd). simpl. apply IH.
Qed.

(** What the loop returns is the dictionary it started with, or that
    dictionary with both entries written. *)
Lemma for_namespaces_shape (items : list json) :
  ∀ info info',
    for_namespaces h api items info = Ok info' →
    (items = [] ∧ info' = info)
    ∨ ∃ p d, info' = <["deployments" := d]> (<["pods" := p]> info).
Proof.
  induction items as [| ns items IH]; intros info info'; simpl.
  - intros [= <-]. by left.
  - destruct (explore_namespace h api info ns) as [info1 |] eqn:Hns; simpl; [| done].
    apply explore_namespace_inv in Hns as (p & d & _ & _ & ->).
    intros Hrest. right.
    apply IH in Hrest as [[_ ->] | (p' & d' & ->)].
    + by exists p, d.
    + exists p', d'. apply overwrite_entries.
Qed.

End LoopOutcomes.

(** X12. No partial result: when the fetch of the pods or of the
    deployments raises for one namespace, after any number of namespaces
    that went well and whatever follows, the exploration raises that
    exception and what was fetched before is lost. *)
Theorem explore_fails_on_any_namespace h (env : gmap string string) (api : ApiClient)
    (body : string) (document items : json) (before after : list json)
    (ns : json) (e : exn) :
  has_local_config_file h env = true →
  new_client_from_config h = Ok api →
  list_namespace h api = Ok body →
  json_loads h body = Ok document →
  subscript document "items" = Ok items →
  iterate items = Ok (before ++ ns :: after) →
  Forall (fun ns' => is_Ok_res (pods_of h api ns') ∧ is_Ok_res (deployments_of h api ns'))
    before →
  pods_of h api ns = Raise e
  ∨ (is_Ok_res (pods_of h api ns) ∧ deployments_of h api ns = Raise e) →
  explore_kubernetes_system h env
  = Logged [ (INFO, "Discovering Kubernetes system") ] (Raise e).
Proof.
  intros Hl Hapi Hbody Hdoc Hitems Hiter Hall Hns.
  rewrite (explore_with_local_config h env Hl).
  rewrite Hapi; simpl. rewrite Hbody; simpl. rewrite Hdoc; simpl.
  rewrite Hitems; simpl. rewrite Hiter; simpl.
  rewrite (for_namespaces_raises h api before after ns e Hall); [done |].
  intros info. by apply explore_namespace_raises.
Qed.

Lemma explore_fails_on_any_namespace_witness :
  explore_kubernetes_system flaky_host ∅
  = Logged [ (INFO, "Discovering Kubernetes system") ]
      (Raise (ExternalError "forbidden")).
Proof.
  apply (explore_fails_on_any_namespace flaky_host ∅ sample_cluster_client
           "namespaces"
           (JObj [("kind", JStr "NamespaceList");
                  ("items", JArr [sample_namespace "default";
                                  sample_namespace "kube-system"])])
           (JArr [sample_namespace "default"; sample_namespace "kube-system"])
           [sample_namespace "default"] [] (sample_namespace "kube-system"));
    try reflexivity.
  - repeat constructor; eexists; reflexivity.
  - right. split; [eexists |]; reflexivity.
Defined.

(** X13. Whenever the exploration returns a dictionary, it logged one
    record and the dictionary is either empty or has exactly the two
    entries ["pods"] and ["deployments"]: never one without the other,
    and nothing per namespace. *)
Theorem explore_result_shape h (env : gmap string string)
    (l : list (level * string)) (info : gmap string json) :
  explore_kubernetes_system h env = Logged l (Ok (Some info)) →
  l = [ (INFO, "Discovering Kubernetes system") ]
  ∧ (info = ∅
     ∨ ∃ p d, info = <["deployments" := d]> (<["pods" := p]> ∅)).
Proof.
  destruct (has_local_config_file h env) eqn:Hl.
  - rewrite (explore_with_local_config h env Hl).
    destruct (new_client_from_config h) as [api |]; simpl; [| done].
    destruct (list_namespace h api) as [body |]; simpl; [| done].
    destruct (json_loads h body) as [document |]; simpl; [| done].
    destruct (subscript document "items") as [items |]; simpl; [| done].
    destruct (iterate items) as [nss |]; simpl; [| done].
    destruct (for_namespaces h api nss ∅) as [info' |] eqn:Hloop; simpl; [| done].
    intros [= <- <-]. split; [done |].
    apply for_namespaces_shape in Hloop as [[_ ->] | (p & d & ->)]; eauto.
  - by rewrite (explore_without_local_config h env Hl).
Qed.

Lemma explore_result_shape_witness :
  [ (INFO, "Discovering Kubernetes system") ]
  = [ (INFO, "Discovering Kubernetes system") ]
  ∧ ((<["deployments" := JObj [("kind", JStr "deployments of kube-system")]]>
        (<["pods" := JObj [("kind", JStr "pods of kube-system")]]> ∅) : gmap string json)
     = ∅
     ∨ ∃ p d,
         (<["deployments" := JObj [("kind", JStr "deployments of kube-system")]]>
            (<["pods" := JObj [("kind", JStr "pods of kube-system")]]> ∅) : gmap string json)
         = <["deployments" := d]> (<["pods" := p]> ∅)).
Proof.
  apply (explore_result_shape dev_host ∅). reflexivity.
Defined.

(** X14. With a local config file and every call succeeding,
    [discover(True)] logs two records and its record carries, under
    [system], the pods and deployments of the last namespace, next to the
    exported activities. *)
Theorem discover_with_cluster h (env : gmap string string) (api : ApiClient)
    (body : string) (document items : json) (nss : list json) (ns_last : json)
    (pods deployments : json) (exported : list DiscoveredActivities) :
  load_exported_activities h = Ok exported →
  has_local_config_file h env = true →
  new_client_from_config h = Ok api →
  list_namespace h api = Ok body →
  json_loads h body = Ok document →
  subscript document "items" = Ok items →
  iterate items = Ok (nss ++ [ns_last]) →
  Forall (fun ns => ∃ p d, pods_of h api ns = Ok p ∧ deployments_of h api ns = Ok d) nss →
  pods_of h api ns_last = Ok pods →
  deployments_of h api ns_last = Ok deployments →
  discover h env true
  = Logged [ (INFO, "Discovering capabilities from chaostoolkit-kubernetes");
             (INFO, "Discovering Kubernetes system") ]
      (Ok (mkDiscovery "chaostoolkit-kubernetes" "0.11.0" "kubernetes" exported
             (Some (<["deployments" := deployments]> (<["pods" := pods]> ∅))))).
Proof.
  intros Hact Hl Hapi Hbody Hdoc Hitems Hiter Hall Hp Hd.
  unfold discover. rewrite Hact, (explore_with_local_config h env Hl).
  rewrite Hapi; simpl. rewrite Hbody; simpl. rewrite Hdoc; simpl.
  rewrite Hitems; simpl. rewrite Hiter; simpl.
  rewrite (for_namespaces_last h api nss ns_last pods deployments Hall Hp Hd).
  reflexivity.
Qed.

Lemma discover_with_cluster_witness :
  discover dev_host ∅ true
  = Logged [ (INFO, "Discovering capabilities from chaostoolkit-kubernetes");
             (INFO, "Discovering Kubernetes system") ]
      (Ok (mkDiscovery "chaostoolkit-kubernetes" "0.11.0" "kubernetes"
             [ JStr "chaosk8s.actions"; JStr "chaosk8s.probes";
               JStr "chaosk8s.pod.actions"; JStr "chaosk8s.pod.probes" ]
             (Some (<["deployments" := JObj [("kind", JStr "deployments of kube-system")]]>
                      (<["pods" := JObj [("kind", JStr "pods of kube-system")]]> ∅))))).
Proof.
  apply (discover_with_cluster dev_host ∅ sample_cluster_client "namespaces"
           (JObj [("kind", JStr "NamespaceList");
                  ("items", JArr [sample_namespace "default";
                                  sample_namespace "kube-system"])])
           (JArr [sample_namespace "default"; sample_namespace "kube-system"])
           [sample_namespace "default"] (sample_namespace "kube-system"));
    try reflexivity.
  repeat constructor; eexists _, _; split; reflexivity.
Defined.

Lemma explore_None_iff_no_local_config_witness :
  outcome (explore_kubernetes_system bare_host scenario_env) = Ok None
  ∧ has_local_config_file dev_host scenario_env ≠ false.
Proof.
  split.
  - apply (proj2 (explore_None_iff_no_local_config bare_host scenario_env)).
    reflexivity.
  - intros Hno.
    apply (proj2 (explore_None_iff_no_local_config dev_host scenario_env)) in Hno.
    discriminate Hno.
Defined.

(** X15. Without a local config file asking for the system changes the
    log only: [discover(True)] and [discover(False)] return the same record,
    or raise the same exception. *)
Theorem discover_system_without_local_config h (env : gmap string string) :
  has_local_config_file h env = false →
  outcome (discover h env true) = outcome (discover h env false)
  ∧ records (discover h env true)
    = records (discover h env false)
      ++ match outcome (discover h env false) with
         | Ok _ => [ (INFO, "Discovering Kubernetes system");
                     (WARNING, "Could not locate the default kubeconfig file") ]
         | Raise _ => []
         end.
Proof.
  intros Hno. unfold discover.
  rewrite (explore_without_local_config h env Hno).
  destruct (load_exported_activities h) as [exported | e]; split; reflexivity.
Qed.

Lemma discover_system_without_local_config_witness :
  outcome (discover bare_host ∅ true) = outcome (discover bare_host ∅ false)
  ∧ records (discover bare_host ∅ true)
    = records (discover bare_host ∅ false)
      ++ match outcome (discover bare_host ∅ false) with
         | Ok _ => [ (INFO, "Discovering Kubernetes system");
                     (WARNING, "Could not locate the default kubeconfig file") ]
         | Raise _ => []
         end.
Proof. apply (discover_system_without_local_config bare_host ∅). reflexivity. Defined.

(** ** Defaults of the second name of each mode *)

(** X16. When the leading name of a mode is present and its companion is
    set nowhere, the companion attribute gets the default of its
    [lookup]: the prefix ["Bearer"] in API-key mode, [None] for
    [key_file] in client-certificate mode, the empty string for the
    password in username mode. *)
Theorem companion_defaults h (env : gmap string string)
    (secrets0 : option (gmap string pyval)) c :
  has_local_config_file h env = false →
  create_k8s_api_client h env secrets0 = Ok (mkApiClient c) →
  (key_present env (secrets_or_empty secrets0) "KUBERNETES_API_KEY" = true →
   key_present env (secrets_or_empty secrets0) "KUBERNETES_API_KEY_PREFIX" = false →
   api_key_prefix c !! "authorization" = Some (PyStr "Bearer"))
  ∧ (key_present env (secrets_or_empty secrets0) "KUBERNETES_API_KEY" = false →
     key_present env (secrets_or_empty secrets0) "KUBERNETES_CERT_FILE" = true →
     key_present env (secrets_or_empty secrets0) "KUBERNETES_KEY_FILE" = false →
     key_file c = PyNone)
  ∧ (key_present env (secrets_or_empty secrets0) "KUBERNETES_API_KEY" = false →
     key_present env (secrets_or_empty secrets0) "KUBERNETES_CERT_FILE" = false →
     key_present env (secrets_or_empty secrets0) "KUBERNETES_USERNAME" = true →
     key_present env (secrets_or_empty secrets0) "KUBERNETES_PASSWORD" = false →
     password c = PyStr "").
Proof.
  intros Hno Hc. split; [| split].
  - intros Hk [He Hs]%key_present_false.
    destruct (api_key_branch h _ _ Hno c Hc Hk) as (_ & -> & _).
    by rewrite lookup_insert_eq, (lookup_absent _ _ _ _ He Hs).
  - intros Hk Hcert [He Hs]%key_present_false.
    destruct (client_certificate_branch h _ _ Hno c Hc Hk Hcert) as (_ & _ & _ & -> & _).
    by rewrite (lookup_absent _ _ _ _ He Hs).
  - intros Hk Hcert Hu [He Hs]%key_present_false.
    destruct (username_password_branch h _ _ Hno c Hc Hk Hcert Hu)
      as (_ & _ & _ & _ & _ & ->).
    by rewrite (lookup_absent _ _ _ _ He Hs).
Qed.

Lemma companion_defaults_witness :
  ∃ c, create_k8s_api_client bare_host ∅ (Some {[ "KUBERNETES_USERNAME" := PyStr "u" ]})
       = Ok (mkApiClient c)
    ∧ password c = PyStr "".
Proof.
  eexists. split; [reflexivity |].
  apply (proj2 (proj2 (companion_defaults bare_host ∅
                         (Some {[ "KUBERNETES_USERNAME" := PyStr "u" ]}) _
                         eq_refl eq_refl)));
    reflexivity.
Defined.
